(** * PretrainedWav2Vec2Frontend: construction and forward pass

    A shallow embedding of
    [src/fairseq2/models/wav2vec2/pretrained_frontend.py].

    The front-end owns a fixed set of optional sub-modules, chosen by
    [__init__], and [forward] runs them in a fixed order.  The numeric kernels
    themselves (layer normalisation, linear projection, dropout, the feature
    extractor and the position encoder) belong to torch and to other modules;
    they are taken as an interface, so every statement below holds for any
    implementation of them. *)

From Stdlib Require Import ZArith List String Bool Floats Lia.
From Stdlib Require Import DecimalString.
Import ListNotations.

Set Implicit Arguments.

(** ** Python values *)

(** A raised Python exception: its class and its message. *)
Record Exn : Type := PyErr { exn_class : string; exn_msg : string }.

Definition ValueError (msg : string) : Exn := PyErr "ValueError" msg.

(** The outcome of a call: an exception or a returned value. *)
Inductive Outcome (A : Type) : Type :=
| Raise (e : Exn)
| Return (a : A).

Arguments Raise {A} e.
Arguments Return {A} a.

(** [str(n)] for a Python [int]. *)
Definition str (n : Z) : string := NilZero.string_of_int (Z.to_int n).

(** A tensor of sequence lengths, one integer per batch item. *)
Definition SeqLens : Type := list Z.

(** A padding mask, batch x time; [true] marks a padded (invalid) position. *)
Definition PaddingMask : Type := list (list bool).

(** ** The torch interface *)

(** The opaque types of torch that the front-end passes around, and the one
    observation the mask utility makes of a tensor. *)
Class Torch : Type := {
  Tensor : Type;               (* torch.Tensor holding batch x time x feature *)
  Device : Type;               (* torch.device *)
  DType : Type;                (* torch.dtype *)
  IncrementalStateBag : Type;  (* fairseq2.nn.incremental_state *)
  World : Type;                (* what kernels read and write besides their
                                  arguments: parameters, the random number
                                  generator, the train/eval flag *)
  time_size : Tensor -> nat    (* seqs.size(1) *)
}.

Section Modules.
Context {torch : Torch}.

(** A kernel call: it may read and update the world, and it may raise.  The
    world as the kernel left it survives an exception. *)
Definition K (A : Type) : Type := World -> World * Outcome A.

(** [torch.nn.LayerNorm(normalized_shape, eps, device=, dtype=)]. *)
Record LayerNorm : Type := mkLayerNorm {
  normalized_shape : Z;
  eps : float;
  ln_device : option Device;
  ln_dtype : option DType
}.

(** [fairseq2.nn.projection.Linear(input_dim, output_dim, bias=, device=, dtype=)]. *)
Record Linear : Type := mkLinear {
  input_dim : Z;
  output_dim : Z;
  bias : bool;
  lin_device : option Device;
  lin_dtype : option DType
}.

(** [torch.nn.Dropout(p)]: the constructor takes the probability only. *)
Record Dropout : Type := mkDropout {
  p : float
}.

(** [SequenceFeatureExtractor]: an object exposing [out_dim] and callable on
    [(seqs, seq_lens)]. *)
Record SequenceFeatureExtractor : Type := mkFeatureExtractor {
  out_dim : Z;
  fe_forward : Tensor -> option SeqLens -> K (Tensor * option SeqLens)
}.

(** [PositionEncoder]: an object exposing [dim] and callable on
    [(seqs, padding_mask)]. *)
Record PositionEncoder : Type := mkPositionEncoder {
  dim : Z;
  pe_forward : Tensor -> option PaddingMask -> K Tensor
}.

(** The fields of the class, as declared at its head (lines 27-33), and
    [model_dim], stored by the base class. *)
Record PretrainedWav2Vec2Frontend : Type := mkFrontend {
  model_dim : Z;
  feature_extractor : option SequenceFeatureExtractor;
  post_extract_layer_norm : LayerNorm;
  post_extract_proj : option Linear;
  post_extract_dropout : option Dropout;
  pos_encoder : option PositionEncoder;
  layer_norm : option LayerNorm;
  dropout : option Dropout
}.

End Modules.

(** The [forward] methods of the torch modules the front-end instantiates. *)
Class Kernels {torch : Torch} : Type := {
  LayerNorm_forward : LayerNorm -> Tensor -> K Tensor;
  Linear_forward : Linear -> Tensor -> K Tensor;
  Dropout_forward : Dropout -> Tensor -> K Tensor
}.

(** ** Construction *)

Section Init.
Context {torch : Torch}.

(** The local [feature_dim] of [__init__] (lines 69-76). *)
Definition feature_dim (model_dim : Z)
    (feature_extractor : option SequenceFeatureExtractor) : Z :=
  match feature_extractor with
  | Some fe => out_dim fe
  | None => model_dim
  end.

(** The message of the error raised at lines 96-98. *)
Definition pos_encoder_dim_msg (pe_dim model_dim : Z) : string :=
  ("`dim` of `pos_encoder` and `model_dim` must be equal, but are "
     ++ str pe_dim ++ " and " ++ str model_dim ++ " instead.")%string.

(** Lines 94-102: the only validation of the constructor. *)
Definition check_pos_encoder (model_dim : Z)
    (pos_encoder : option PositionEncoder) : Outcome (option PositionEncoder) :=
  match pos_encoder with
  | Some pe =>
      if negb (dim pe =? model_dim)%Z
      then Raise (ValueError (pos_encoder_dim_msg (dim pe) model_dim))
      else Return (Some pe)
  | None => Return None
  end.

(** [PretrainedWav2Vec2Frontend.__init__] (lines 35-112).  The sub-modules are
    built in source order; the exception of line 96 abandons the object. *)
Definition __init__
    (model_dim : Z)
    (feature_extractor : option SequenceFeatureExtractor)
    (pos_encoder : option PositionEncoder)
    (post_extract_dropout_p : float)
    (layer_norm : bool)
    (dropout_p : float)
    (norm_eps : float)
    (device : option Device)
    (dtype : option DType) : Outcome PretrainedWav2Vec2Frontend :=
  let feature_dim := feature_dim model_dim feature_extractor in
  let post_extract_layer_norm := mkLayerNorm feature_dim norm_eps device dtype in
  let post_extract_proj :=
    if negb (feature_dim =? model_dim)%Z
    then Some (mkLinear feature_dim model_dim true device dtype)
    else None in
  let post_extract_dropout :=
    if (0 <? post_extract_dropout_p)%float
    then Some (mkDropout post_extract_dropout_p)
    else None in
  match check_pos_encoder model_dim pos_encoder with
  | Raise e => Raise e
  | Return pos_encoder =>
      let layer_norm :=
        if layer_norm
        then Some (mkLayerNorm model_dim norm_eps device dtype)
        else None in
      let dropout :=
        if (0 <? dropout_p)%float
        then Some (mkDropout dropout_p)
        else None in
      Return (mkFrontend model_dim feature_extractor post_extract_layer_norm
                post_extract_proj post_extract_dropout pos_encoder
                layer_norm dropout)
  end.

(** The defaults of the keyword arguments (lines 40-45). *)
Definition default_post_extract_dropout_p : float := 0%float.
Definition default_layer_norm : bool := false.
Definition default_dropout_p : float := 0x1.999999999999ap-4%float.  (* 0.1 *)
Definition default_norm_eps : float := 0x1.4f8b588e368f1p-17%float.  (* 1e-5 *)

End Init.

(** ** The forward pass *)

(** The sub-module invocations of [forward], as a ghost trace.  The position
    encoder's entry records the padding mask it was handed. *)
Inductive Call : Type :=
| call_feature_extractor
| call_post_extract_layer_norm
| call_post_extract_proj
| call_post_extract_dropout
| call_pos_encoder (padding_mask : option PaddingMask)
| call_layer_norm
| call_dropout.

Section Methods.
Context {torch : Torch}.

(** What a method call can see and change: the object itself, the world of the
    kernels, and the trace of sub-module invocations so far. *)
Record Env : Type := mkEnv {
  self : PretrainedWav2Vec2Frontend;
  world : World;
  trace : list Call
}.

(** Method bodies: state passing over [Env], with exceptions. *)
Definition M (A : Type) : Type := Env -> Env * Outcome A.

Definition ret {A : Type} (a : A) : M A :=
  fun st => (st, Return a).

Definition raise {A : Type} (e : Exn) : M A :=
  fun st => (st, Raise e).

Definition bind {A B : Type} (m : M A) (f : A -> M B) : M B :=
  fun st =>
    match m st with
    | (st', Return a) => f a st'
    | (st', Raise e) => (st', Raise e)
    end.

(** [self.<field>] *)
Definition attr {A : Type} (field : PretrainedWav2Vec2Frontend -> A) : M A :=
  fun st => (st, Return (field (self st))).

(** Calling a sub-module: the call is recorded, the kernel runs on the world,
    and [self] is not passed to it. *)
Definition invoke {A : Type} (c : Call) (k : K A) : M A :=
  fun st =>
    let (w, r) := k (world st) in
    (mkEnv (self st) w (trace st ++ [c]), r).

End Methods.

Notation "x <- m ;; k" := (bind m (fun x => k))
  (at level 61, m at next level, right associativity).
Notation "' pat <- m ;; k" := (bind m (fun x => match x with pat => k end))
  (at level 61, pat pattern, m at next level, right associativity).

Section Forward.
Context {torch : Torch} {kernels : Kernels}.

(** Modelled from the spec: [to_padding_mask] of [fairseq2.nn.utils.mask],
    which [forward] imports and whose body is not in this file.  Without
    lengths there is no mask; with lengths, the mask has one row per batch
    item and one column per time step of [seqs], and marks the positions at
    or beyond the item's length. *)
Definition to_padding_mask (seqs : Tensor) (seq_lens : option SeqLens)
  : option PaddingMask :=
  match seq_lens with
  | None => None
  | Some lens =>
      Some (map (fun len =>
                   map (fun t => (len <=? Z.of_nat t)%Z)
                       (seq 0 (time_size seqs)))
                lens)
  end.

Definition incremental_msg : string :=
  "`PretrainedWav2Vec2Frontend` does not support incremental evaluation.".

(** [PretrainedWav2Vec2Frontend.forward] (lines 114-148).  As in the source,
    [seqs] and [seq_lens] are rebound by each step. *)
Definition forward
    (seqs : Tensor)
    (seq_lens : option SeqLens)
    (state_bag : option IncrementalStateBag)
  : M (Tensor * option PaddingMask) :=
  match state_bag with
  | Some _ => raise (ValueError incremental_msg)
  | None =>
      fe <- attr feature_extractor ;;
      '(seqs, seq_lens) <-
        match fe with
        | Some fe => invoke call_feature_extractor (fe_forward fe seqs seq_lens)
        | None => ret (seqs, seq_lens)
        end ;;
      let padding_mask := to_padding_mask seqs seq_lens in
      ln <- attr post_extract_layer_norm ;;
      seqs <- invoke call_post_extract_layer_norm (LayerNorm_forward ln seqs) ;;
      proj <- attr post_extract_proj ;;
      seqs <-
        match proj with
        | Some proj => invoke call_post_extract_proj (Linear_forward proj seqs)
        | None => ret seqs
        end ;;
      drop <- attr post_extract_dropout ;;
      seqs <-
        match drop with
        | Some drop =>
            invoke call_post_extract_dropout (Dropout_forward drop seqs)
        | None => ret seqs
        end ;;
      pe <- attr pos_encoder ;;
      seqs <-
        match pe with
        | Some pe =>
            invoke (call_pos_encoder padding_mask)
                   (pe_forward pe seqs padding_mask)
        | None => ret seqs
        end ;;
      ln <- attr layer_norm ;;
      seqs <-
        match ln with
        | Some ln => invoke call_layer_norm (LayerNorm_forward ln seqs)
        | None => ret seqs
        end ;;
      drop <- attr dropout ;;
      seqs <-
        match drop with
        | Some drop => invoke call_dropout (Dropout_forward drop seqs)
        | None => ret seqs
        end ;;
      ret (seqs, padding_mask)
  end.

(** *** The pipeline as the specification words it

    A stage that is present runs; a stage that is absent passes its input
    through.  The stages are composed left to right. *)
Definition optional_stage {A : Type} (present : option A)
    (run : A -> Tensor -> M Tensor) : Tensor -> M Tensor :=
  match present with
  | Some a => run a
  | None => ret
  end.

Definition compose (stages : list (Tensor -> M Tensor)) : Tensor -> M Tensor :=
  fold_right (fun f rest x => y <- f x ;; rest y) ret stages.

Definition extraction (fr : PretrainedWav2Vec2Frontend)
    (seqs : Tensor) (seq_lens : option SeqLens)
  : M (Tensor * option SeqLens) :=
  match feature_extractor fr with
  | Some fe => invoke call_feature_extractor (fe_forward fe seqs seq_lens)
  | None => ret (seqs, seq_lens)
  end.

Definition stages_after_mask (fr : PretrainedWav2Vec2Frontend)
    (padding_mask : option PaddingMask) : list (Tensor -> M Tensor) :=
  [ (fun x => invoke call_post_extract_layer_norm
                (LayerNorm_forward (post_extract_layer_norm fr) x));
    optional_stage (post_extract_proj fr)
      (fun m x => invoke call_post_extract_proj (Linear_forward m x));
    optional_stage (post_extract_dropout fr)
      (fun m x => invoke call_post_extract_dropout (Dropout_forward m x));
    optional_stage (pos_encoder fr)
      (fun m x => invoke (call_pos_encoder padding_mask)
                    (pe_forward m x padding_mask));
    optional_stage (layer_norm fr)
      (fun m x => invoke call_layer_norm (LayerNorm_forward m x));
    optional_stage (dropout fr)
      (fun m x => invoke call_dropout (Dropout_forward m x)) ].

Definition pipeline (fr : PretrainedWav2Vec2Frontend)
    (seqs : Tensor) (seq_lens : option SeqLens)
  : M (Tensor * option PaddingMask) :=
  '(seqs, seq_lens) <- extraction fr seqs seq_lens ;;
  let padding_mask := to_padding_mask seqs seq_lens in
  out <- compose (stages_after_mask fr padding_mask) seqs ;;
  ret (out, padding_mask).

(** *** Sub-modules built by the constructor *)

(** The modules [__init__] instantiates itself (lines 78, 83, 90, 105, 110);
    the feature extractor and the position encoder are handed in ready-made. *)
Inductive SubModule : Type :=
| sub_layer_norm (m : LayerNorm)
| sub_linear (m : Linear)
| sub_dropout (m : Dropout).

Definition instantiated (fr : PretrainedWav2Vec2Frontend) : list SubModule :=
  [sub_layer_norm (post_extract_layer_norm fr)]
    ++ match post_extract_proj fr with Some m => [sub_linear m] | None => [] end
    ++ match post_extract_dropout fr with Some m => [sub_dropout m] | None => [] end
    ++ match layer_norm fr with Some m => [sub_layer_norm m] | None => [] end
    ++ match dropout fr with Some m => [sub_dropout m] | None => [] end.

(** The placement hints a sub-module's constructor received, if it received
    any. *)
Definition placement (m : SubModule) : option (option Device * option DType) :=
  match m with
  | sub_layer_norm m => Some (ln_device m, ln_dtype m)
  | sub_linear m => Some (lin_device m, lin_dtype m)
  | sub_dropout _ => None
  end.

End Forward.

(** ** Properties of method bodies *)

Section Properties.
Context {torch : Torch}.

(** A computation leaves the fields of [self] as it found them, whether it
    returns or raises. *)
Definition keeps_self {A : Type} (m : M A) : Prop :=
  forall st, self (fst (m st)) = self st.

(** A computation only appends to the trace, and every call it appends
    satisfies [P]. *)
Definition appends_calls {A : Type} (P : Call -> Prop) (m : M A) : Prop :=
  forall st, exists calls,
    trace (fst (m st)) = trace st ++ calls /\ Forall P calls.

(** Two computations agree on every state whose object is [fr]. *)
Definition agree_on {A : Type} (fr : PretrainedWav2Vec2Frontend)
    (m1 m2 : M A) : Prop :=
  forall st, self st = fr -> m1 st = m2 st.

(** A position-encoder call, if this is one, was handed [mask]. *)
Definition handed_mask (mask : option PaddingMask) (c : Call) : Prop :=
  match c with
  | call_pos_encoder m => m = mask
  | _ => True
  end.

(** The placement hints reached the constructor of every sub-module the
    front-end built. *)
Definition hints_reach_all (device : option Device) (dtype : option DType)
    (fr : PretrainedWav2Vec2Frontend) : Prop :=
  forall m, In m (instantiated fr) -> placement m = Some (device, dtype).



End Properties.

(** ** A small integer backend, for running the definitions *)

Module Fixture.

Definition Frames : Type := list (list Z).

#[export] Instance torch : Torch := {|
  Tensor := list Frames;
  Device := string;
  DType := string;
  IncrementalStateBag := unit;
  World := nat;     (* the state of the random number generator *)
  time_size := fun x => match x with [] => O | frames :: _ => List.length frames end
|}.

(** Each feature vector is shifted so that its first entry is zero. *)
Definition centre (v : list Z) : list Z :=
  map (fun a => a - hd 0 v)%Z v.

(** The all-ones weight matrix without bias. *)
Definition ones_projection (out : Z) (v : list Z) : list Z :=
  repeat (fold_right Z.add 0%Z v) (Z.to_nat out).

#[export] Instance kernels : Kernels := {|
  LayerNorm_forward := fun _ x w => (w, Return (map (map centre) x));
  Linear_forward := fun l x w =>
    (w, Return (map (map (ones_projection (output_dim l))) x));
  Dropout_forward := fun _ x w =>
    (S w, Return (if Nat.even w then x
                  else map (map (map (fun _ => 0%Z))) x))
|}.

Fixpoint every_other {A : Type} (l : list A) : list A :=
  match l with
  | [] => []
  | a :: rest =>
      a :: match rest with
           | [] => []
           | _ :: rest' => every_other rest'
           end
  end.

(** A stride-two extractor: it keeps every other frame and halves the
    lengths, rounding up. *)
Definition strided (out : Z) : SequenceFeatureExtractor :=
  mkFeatureExtractor out
    (fun x lens w =>
       (w, Return (map every_other x,
                   option_map (map (fun n => (n + 1) / 2)%Z) lens))).

(** An extractor that always raises. *)
Definition broken (out : Z) : SequenceFeatureExtractor :=
  mkFeatureExtractor out
    (fun _ _ w => (w, Raise (PyErr "RuntimeError" "shape mismatch"))).

Definition add_positions (mask_row : list bool) (frames : Frames) : Frames :=
  map (fun tv : nat * list Z =>
         let (t, v) := tv in
         if nth t mask_row false
         then map (fun _ => 0%Z) v
         else map (Z.add (Z.of_nat t)) v)
      (combine (seq 0 (List.length frames)) frames).

(** A position encoder that adds the time index to every feature of a valid
    position and zeroes the padded ones. *)
Definition indexed (d : Z) : PositionEncoder :=
  mkPositionEncoder d
    (fun x mask w =>
       (w, Return
             (map (fun ib : nat * Frames =>
                     let (i, frames) := ib in
                     add_positions
                       (match mask with Some m => nth i m [] | None => [] end)
                       frames)
                  (combine (seq 0 (List.length x)) x)))).

(** A batch of two items, four time steps, two features. *)
Definition batch : Tensor :=
  [ [[1; 2]; [3; 5]; [4; 4]; [7; 9]];
    [[2; 2]; [6; 1]; [0; 0]; [0; 0]] ]%Z.

Definition start (fr : PretrainedWav2Vec2Frontend) : Env := mkEnv fr O [].

(** The front-end of the first example scenario of the specification: no
    extractor, no position encoder, no dropout, no final normaliser. *)
Definition bare : PretrainedWav2Vec2Frontend :=
  mkFrontend 256 None
    (mkLayerNorm 256 default_norm_eps None None) None None None None None.

Definition cuda : option Device := Some "cuda:0"%string.
Definition float16 : option DType := Some "float16"%string.




(** A front-end with every stage present. *)
Definition full : PretrainedWav2Vec2Frontend :=
  mkFrontend 3 (Some (strided 2))
    (mkLayerNorm 2 default_norm_eps cuda float16)
    (Some (mkLinear 2 3 true cuda float16))
    (Some (mkDropout 0.5%float))
    (Some (indexed 3))
    (Some (mkLayerNorm 3 default_norm_eps cuda float16))
    (Some (mkDropout default_dropout_p)).

End Fixture.

(** ** The stages as data

    A second reading of lines 126-146 of [forward], for reasoning about the
    calls it makes: the configured sub-modules as a list, and the run of
    their kernels on the world alone. *)

Section Stages.
Context {torch : Torch} {kernels : Kernels}.

(** A stage that will run: the trace entry of its call and its kernel. *)
Definition Stage : Type := (Call * (Tensor -> K Tensor))%type.

(** The sub-modules called after the mask is derived (lines 131-146): the
    post-extraction layer norm and then each optional sub-module that is not
    [None], in source order. *)
Definition present_stages (fr : PretrainedWav2Vec2Frontend)
    (padding_mask : option PaddingMask) : list Stage :=
  [(call_post_extract_layer_norm,
    LayerNorm_forward (post_extract_layer_norm fr))]
    ++ match post_extract_proj fr with
       | Some m => [(call_post_extract_proj, Linear_forward m)]
       | None => []
       end
    ++ match post_extract_dropout fr with
       | Some m => [(call_post_extract_dropout, Dropout_forward m)]
       | None => []
       end
    ++ match pos_encoder fr with
       | Some m => [(call_pos_encoder padding_mask,
                     fun x => pe_forward m x padding_mask)]
       | None => []
       end
    ++ match layer_norm fr with
       | Some m => [(call_layer_norm, LayerNorm_forward m)]
       | None => []
       end
    ++ match dropout fr with
       | Some m => [(call_dropout, Dropout_forward m)]
       | None => []
       end.

(** The calls of a forward pass that runs to its end. *)
Definition expected_calls (fr : PretrainedWav2Vec2Frontend)
    (padding_mask : option PaddingMask) : list Call :=
  match feature_extractor fr with
  | Some _ => [call_feature_extractor]
  | None => []
  end ++ map fst (present_stages fr padding_mask).

(** The kernels of the stages run one after the other on the world; the
    first exception ends the run.  The calls made are listed. *)
Fixpoint run_kernels (stages : list Stage) (x : Tensor) (w : World)
  : World * list Call * Outcome Tensor :=
  match stages with
  | [] => (w, [], Return x)
  | (c, k) :: rest =>
      match k x w with
      | (w1, Raise e) => (w1, [c], Raise e)
      | (w1, Return y) =>
          let '(w2, calls, r) := run_kernels rest y w1 in
          (w2, c :: calls, r)
      end
  end.

Definition with_mask (padding_mask : option PaddingMask)
    (r : Outcome Tensor) : Outcome (Tensor * option PaddingMask) :=
  match r with
  | Raise e => Raise e
  | Return out => Return (out, padding_mask)
  end.

(** Lines 126-148 on the world alone. *)
Definition run_frontend (fr : PretrainedWav2Vec2Frontend)
    (seqs : Tensor) (seq_lens : option SeqLens) (w : World)
  : World * list Call * Outcome (Tensor * option PaddingMask) :=
  match feature_extractor fr with
  | Some fe =>
      match fe_forward fe seqs seq_lens w with
      | (w1, Raise e) => (w1, [call_feature_extractor], Raise e)
      | (w1, Return (seqs1, lens1)) =>
          let padding_mask := to_padding_mask seqs1 lens1 in
          let '(w2, calls, r) :=
            run_kernels (present_stages fr padding_mask) seqs1 w1 in
          (w2, call_feature_extractor :: calls, with_mask padding_mask r)
      end
  | None =>
      let padding_mask := to_padding_mask seqs seq_lens in
      let '(w2, calls, r) :=
        run_kernels (present_stages fr padding_mask) seqs w in
      (w2, calls, with_mask padding_mask r)
  end.

(** A run on the world, seen from a method body: the object is untouched,
    the calls are appended to the trace. *)
Definition finish {A : Type} (st : Env)
    (res : World * list Call * Outcome A) : Env * Outcome A :=
  let '(w, calls, r) := res in
  (mkEnv (self st) w (trace st ++ calls), r).

(** A list of stage functions does what a list of stages does: each
    function is the call of the stage facing it, or passes its input
    through. *)
Inductive mirrors : list (Tensor -> M Tensor) -> list Stage -> Prop :=
| mirrors_nil : mirrors [] []
| mirrors_call f fs c k ts :
    (forall x st, f x st = invoke c (k x) st) ->
    mirrors fs ts ->
    mirrors (f :: fs) ((c, k) :: ts)
| mirrors_skip f fs ts :
    (forall x st, f x st = ret x st) ->
    mirrors fs ts ->
    mirrors (f :: fs) ts.

(** The declared dimensions of the stages fit together: the post-extraction
    norm is over what the extractor puts out (or over [model_dim] without
    one), the projection takes that to [model_dim], without a projection the
    two are equal, and the position encoder and the final norm are over
    [model_dim]. *)
Definition well_dimensioned (fr : PretrainedWav2Vec2Frontend) : Prop :=
  normalized_shape (post_extract_layer_norm fr)
  = match feature_extractor fr with
    | Some fe => out_dim fe
    | None => model_dim fr
    end
  /\ (forall m, post_extract_proj fr = Some m ->
        input_dim m = normalized_shape (post_extract_layer_norm fr)
        /\ output_dim m = model_dim fr
        /\ input_dim m <> output_dim m)
  /\ (post_extract_proj fr = None ->
        normalized_shape (post_extract_layer_norm fr) = model_dim fr)
  /\ (forall m, pos_encoder fr = Some m -> dim m = model_dim fr)
  /\ (forall m, layer_norm fr = Some m -> normalized_shape m = model_dim fr).

(** The calls of a forward pass that runs to its end, read off the
    arguments the front-end was constructed with. *)
Definition calls_for_arguments (model_dim : Z)
    (feature_extractor : option SequenceFeatureExtractor)
    (pos_encoder : option PositionEncoder)
    (post_extract_dropout_p : float) (layer_norm : bool) (dropout_p : float)
    (padding_mask : option PaddingMask) : list Call :=
  match feature_extractor with
  | Some _ => [call_feature_extractor]
  | None => []
  end
    ++ [call_post_extract_layer_norm]
    ++ (if (feature_dim model_dim feature_extractor =? model_dim)%Z
        then [] else [call_post_extract_proj])
    ++ (if (0 <? post_extract_dropout_p)%float
        then [call_post_extract_dropout] else [])
    ++ match pos_encoder with
       | Some _ => [call_pos_encoder padding_mask]
       | None => []
       end
    ++ (if layer_norm then [call_layer_norm] else [])
    ++ (if (0 <? dropout_p)%float then [call_dropout] else []).

End Stages.

(** ** Construction with the constructors' own errors

    [__init__] above is what the constructor builds once [LayerNorm],
    [Linear] and [Dropout] have accepted their arguments.  Those
    constructors belong to torch and to [fairseq2.nn.projection]; each can
    raise on the arguments it is given, and [__init__] catches nothing.
    Which arguments they refuse, and with which exception, is taken as an
    interface. *)

Class Constructors {torch : Torch} : Type := {
  (* the exception [LayerNorm(normalized_shape, eps, device=, dtype=)]
     raises, if it raises *)
  LayerNorm_rejects :
    Z -> float -> option Device -> option DType -> option Exn;
  (* the exception [Linear(input_dim, output_dim, bias=, device=, dtype=)]
     raises, if it raises *)
  Linear_rejects :
    Z -> Z -> bool -> option Device -> option DType -> option Exn;
  (* the exception [Dropout(p)] raises, if it raises *)
  Dropout_rejects : float -> option Exn
}.

Module Checked.
Section Construction.
Context {torch : Torch} {constructors : Constructors}.

(** A constructor call: the exception, or the module built. *)
Definition construct {A : Type} (rejected : option Exn) (built : A)
  : Outcome A :=
  match rejected with
  | Some e => Raise e
  | None => Return built
  end.

Definition new_LayerNorm (normalized_shape : Z) (eps : float)
    (device : option Device) (dtype : option DType) : Outcome LayerNorm :=
  construct (LayerNorm_rejects normalized_shape eps device dtype)
            (mkLayerNorm normalized_shape eps device dtype).

Definition new_Linear (input_dim output_dim : Z) (bias : bool)
    (device : option Device) (dtype : option DType) : Outcome Linear :=
  construct (Linear_rejects input_dim output_dim bias device dtype)
            (mkLinear input_dim output_dim bias device dtype).

Definition new_Dropout (p : float) : Outcome Dropout :=
  construct (Dropout_rejects p) (mkDropout p).

(** Statements in sequence: an exception ends the constructor. *)
Definition and_then {A B : Type} (r : Outcome A) (f : A -> Outcome B)
  : Outcome B :=
  match r with
  | Raise e => Raise e
  | Return a => f a
  end.

(** [self.<field> = <constructor call>] under an [if], else
    [register_module("<field>", None)]. *)
Definition when {A : Type} (condition : bool) (r : Outcome A)
  : Outcome (option A) :=
  if condition
  then and_then r (fun a => Return (Some a))
  else Return None.

(** [PretrainedWav2Vec2Frontend.__init__] (lines 35-112), statement by
    statement: the constructor calls of lines 78, 83 and 90, the check of
    lines 94-102, the constructor calls of lines 105 and 110. *)
Definition __init__
    (model_dim : Z)
    (feature_extractor : option SequenceFeatureExtractor)
    (pos_encoder : option PositionEncoder)
    (post_extract_dropout_p : float)
    (layer_norm : bool)
    (dropout_p : float)
    (norm_eps : float)
    (device : option Device)
    (dtype : option DType) : Outcome PretrainedWav2Vec2Frontend :=
  let feature_dim := feature_dim model_dim feature_extractor in
  and_then (new_LayerNorm feature_dim norm_eps device dtype)
    (fun post_extract_layer_norm =>
  and_then (when (negb (feature_dim =? model_dim)%Z)
              (new_Linear feature_dim model_dim true device dtype))
    (fun post_extract_proj =>
  and_then (when (0 <? post_extract_dropout_p)%float
              (new_Dropout post_extract_dropout_p))
    (fun post_extract_dropout =>
  and_then (check_pos_encoder model_dim pos_encoder)
    (fun pos_encoder =>
  and_then (when layer_norm
              (new_LayerNorm model_dim norm_eps device dtype))
    (fun layer_norm =>
  and_then (when (0 <? dropout_p)%float (new_Dropout dropout_p))
    (fun dropout =>
  Return (mkFrontend model_dim feature_extractor post_extract_layer_norm
            post_extract_proj post_extract_dropout pos_encoder
            layer_norm dropout))))))).




End Construction.
End Checked.

(** Further fixtures. *)
Module Cases.
Import Fixture.

(** A front-end whose extractor raises. *)
Definition faulty : PretrainedWav2Vec2Frontend :=
  mkFrontend 3 (Some (broken 2))
    (mkLayerNorm 2 default_norm_eps None None)
    (Some (mkLinear 2 3 true None None)) None None None None.

(** A front-end whose extractor already puts out [model_dim] features, and
    the same front-end fed with features extracted beforehand. *)
Definition with_extractor : PretrainedWav2Vec2Frontend :=
  mkFrontend 2 (Some (strided 2))
    (mkLayerNorm 2 default_norm_eps None None)
    None None (Some (indexed 2)) None (Some (mkDropout default_dropout_p)).

Definition without_extractor : PretrainedWav2Vec2Frontend :=
  mkFrontend 2 None
    (mkLayerNorm 2 default_norm_eps None None)
    None None (Some (indexed 2)) None (Some (mkDropout default_dropout_p)).

(** Constructors with the argument checks of torch: a dimension must not be
    negative, and a dropout probability must lie between 0 and 1. *)
#[export] Instance range_checked : Constructors := {|
  LayerNorm_rejects := fun d _ _ _ =>
    if (d <? 0)%Z
    then Some (PyErr "RuntimeError"
                 "Trying to create tensor with negative dimension")
    else None;
  Linear_rejects := fun d_in d_out _ _ _ =>
    if ((d_in <? 0) || (d_out <? 0))%Z
    then Some (PyErr "RuntimeError"
                 "Trying to create tensor with negative dimension")
    else None;
  Dropout_rejects := fun p =>
    if ((p <? 0) || (1 <? p))%float
    then Some (ValueError "dropout probability has to be between 0 and 1")
    else None
|}.

End Cases.

(** * Proofs *)

(** ** Laws of method bodies *)

Section Laws.
Context {torch : Torch}.

Lemma bind_returns {A B : Type} (m : M A) (f : A -> M B) st st' b :
  bind m f st = (st', Return b) ->
  exists st1 a, m st = (st1, Return a) /\ f a st1 = (st', Return b).
Proof.
  unfold bind. destruct (m st) as [st1 [e | a]]; intros E.
  - discriminate E.
  - exists st1, a. split; [reflexivity | exact E].
Qed.

Lemma keeps_self_ret {A : Type} (a : A) : keeps_self (ret a).
Proof. intros st. reflexivity. Qed.

Lemma keeps_self_raise {A : Type} (e : Exn) : keeps_self (@raise _ A e).
Proof. intros st. reflexivity. Qed.

Lemma keeps_self_attr {A : Type} (field : PretrainedWav2Vec2Frontend -> A) :
  keeps_self (attr field).
Proof. intros st. reflexivity. Qed.

Lemma keeps_self_invoke {A : Type} (c : Call) (k : K A) :
  keeps_self (invoke c k).
Proof. intros st. unfold invoke. destruct (k (world st)). reflexivity. Qed.

Lemma keeps_self_bind {A B : Type} (m : M A) (f : A -> M B) :
  keeps_self m -> (forall a, keeps_self (f a)) -> keeps_self (bind m f).
Proof.
  intros Hm Hf st. unfold bind.
  specialize (Hm st). destruct (m st) as [st1 [e | a]]; simpl in *.
  - exact Hm.
  - rewrite (Hf a st1). exact Hm.
Qed.

Lemma appends_ret {A : Type} (P : Call -> Prop) (a : A) :
  appends_calls P (ret a).
Proof. intros st. exists []. simpl. rewrite app_nil_r. auto. Qed.

Lemma appends_raise {A : Type} (P : Call -> Prop) (e : Exn) :
  appends_calls P (@raise _ A e).
Proof. intros st. exists []. simpl. rewrite app_nil_r. auto. Qed.

Lemma appends_attr {A : Type} (P : Call -> Prop)
    (field : PretrainedWav2Vec2Frontend -> A) :
  appends_calls P (attr field).
Proof. intros st. exists []. simpl. rewrite app_nil_r. auto. Qed.

Lemma appends_invoke {A : Type} (P : Call -> Prop) (c : Call) (k : K A) :
  P c -> appends_calls P (invoke c k).
Proof.
  intros Hc st. exists [c]. unfold invoke.
  destruct (k (world st)). simpl. auto.
Qed.

Lemma appends_bind {A B : Type} (P : Call -> Prop) (m : M A) (f : A -> M B) :
  appends_calls P m -> (forall a, appends_calls P (f a)) ->
  appends_calls P (bind m f).
Proof.
  intros Hm Hf st. unfold bind.
  destruct (Hm st) as [c1 [E1 F1]].
  destruct (m st) as [st1 [e | a]]; simpl in *.
  - exists c1. auto.
  - destruct (Hf a st1) as [c2 [E2 F2]].
    exists (c1 ++ c2). rewrite E2, E1, app_assoc. split.
    + reflexivity.
    + apply Forall_app. auto.
Qed.

Lemma agree_refl {A : Type} fr (m : M A) : agree_on fr m m.
Proof. intros st _. reflexivity. Qed.

Lemma agree_attr {A B : Type} fr
    (field : PretrainedWav2Vec2Frontend -> A) (k : A -> M B) (m : M B) :
  agree_on fr (k (field fr)) m -> agree_on fr (bind (attr field) k) m.
Proof.
  intros H st E. unfold bind, attr. rewrite E. apply H. exact E.
Qed.

Lemma agree_bind {A B : Type} fr (m : M A) (f g : A -> M B) :
  keeps_self m -> (forall a, agree_on fr (f a) (g a)) ->
  agree_on fr (bind m f) (bind m g).
Proof.
  intros Hm Hfg st E. unfold bind.
  specialize (Hm st). destruct (m st) as [st1 [e | a]]; simpl in *.
  - reflexivity.
  - apply Hfg. rewrite Hm. exact E.
Qed.

Lemma agree_assoc_r {A B C : Type} fr (m0 : M C)
    (m : M A) (f : A -> M B) (g : B -> M C) :
  agree_on fr m0 (bind m (fun x => bind (f x) g)) ->
  agree_on fr m0 (bind (bind m f) g).
Proof.
  intros H st E. rewrite (H st E). unfold bind.
  destruct (m st) as [st1 [e | a]]; reflexivity.
Qed.

End Laws.

Create HintDb frame.

#[local] Hint Resolve keeps_self_ret keeps_self_raise keeps_self_attr
  keeps_self_invoke : frame.
#[local] Hint Resolve appends_ret appends_raise appends_attr : frame.

(** Walks a method body: a bind splits into its head and its continuation,
    and a branch on an optional or a pair is taken apart where it stands. *)
Ltac walk bind_rule :=
  repeat first
    [ solve [auto with frame]
    | apply bind_rule
    | match goal with |- forall _, _ => intro end
    | match goal with
      | |- context [match ?o with _ => _ end] => destruct o
      end ].

(** ** The forward pass *)

Section ForwardFacts.
Context {torch : Torch} {kernels : Kernels}.

Lemma optional_stage_unfold {A : Type} (present : option A)
    (run : A -> Tensor -> M Tensor) (x : Tensor) :
  optional_stage present run x
  = match present with Some a => run a x | None => ret x end.
Proof. destruct present; reflexivity. Qed.

Lemma forward_keeps_self seqs seq_lens state_bag :
  keeps_self (forward seqs seq_lens state_bag).
Proof. unfold forward. walk (@keeps_self_bind torch). Qed.

Lemma extraction_keeps_self fr seqs seq_lens :
  keeps_self (extraction fr seqs seq_lens).
Proof. unfold extraction. walk (@keeps_self_bind torch). Qed.

Lemma compose_cons (f : Tensor -> M Tensor) rest (x : Tensor) :
  compose (f :: rest) x = bind (f x) (compose rest).
Proof. reflexivity. Qed.

Lemma compose_nil (x : Tensor) : compose [] x = ret x.
Proof. reflexivity. Qed.

(** One stage of the comparison: the source reads the field and branches, the
    pipeline runs the optional stage and goes on with the rest. *)
Ltac optional_stage_step y :=
  apply agree_attr; rewrite compose_cons; apply agree_assoc_r;
  rewrite optional_stage_unfold; cbv beta;
  apply agree_bind;
  [ match goal with
    | |- keeps_self (match ?o with _ => _ end) => destruct o; auto with frame
    end
  | clear y; intros y ].

Lemma forward_agrees_pipeline fr seqs seq_lens :
  agree_on fr (forward seqs seq_lens None) (pipeline fr seqs seq_lens).
Proof.
  unfold forward, pipeline, extraction, stages_after_mask.
  apply agree_attr. apply agree_bind.
  { destruct (feature_extractor fr); auto with frame. }
  intros [x lens].
  apply agree_attr. rewrite compose_cons. apply agree_assoc_r.
  apply agree_bind; [auto with frame | intros y].
  do 5 optional_stage_step y.
  rewrite compose_nil. apply agree_refl.
Qed.

Lemma forward_is_pipeline seqs seq_lens st :
  forward seqs seq_lens None st = pipeline (self st) seqs seq_lens st.
Proof. apply forward_agrees_pipeline. reflexivity. Qed.

Lemma extraction_hands_mask fr mask seqs seq_lens :
  appends_calls (handed_mask mask) (extraction fr seqs seq_lens).
Proof.
  unfold extraction. destruct (feature_extractor fr).
  - apply appends_invoke. exact I.
  - apply appends_ret.
Qed.

Lemma stages_hand_mask fr mask x :
  appends_calls (handed_mask mask) (compose (stages_after_mask fr mask) x).
Proof.
  unfold stages_after_mask.
  repeat (rewrite compose_cons; apply appends_bind;
          [ rewrite ?optional_stage_unfold;
            try match goal with
                | |- context [match ?o with _ => _ end] => destruct o
                end;
            first [apply appends_ret | apply appends_invoke; simpl; auto]
          | clear x; intros x ]).
  rewrite compose_nil. apply appends_ret.
Qed.

(** A forward call that returns went through extraction, derived the mask
    from what extraction returned, and ran the remaining stages. *)
Lemma forward_returns seqs seq_lens st st' out mask :
  forward seqs seq_lens None st = (st', Return (out, mask)) ->
  exists st1 seqs1 lens1,
    extraction (self st) seqs seq_lens st = (st1, Return (seqs1, lens1))
    /\ mask = to_padding_mask seqs1 lens1
    /\ compose (stages_after_mask (self st) mask) seqs1 st1
       = (st', Return out).
Proof.
  rewrite forward_is_pipeline. unfold pipeline. intros H.
  apply bind_returns in H. destruct H as (st1 & [seqs1 lens1] & E1 & H).
  apply bind_returns in H. destruct H as (st2 & out' & E2 & H).
  unfold ret in H. injection H as -> -> <-.
  exists st1, seqs1, lens1. auto.
Qed.


(** C1: a forward call without incremental state is the composition, in this
    order, of feature extraction (when an extractor is present, replacing the
    sequence and the lengths), mask derivation, the post-extraction layer
    norm, then the projection, the post-extraction dropout, the position
    encoder given the mask, the final layer norm and the final dropout, each
    run when present and passed through when absent.  The two sides agree on
    the returned value, on a raised exception and on the state left behind. *)
Theorem forward_composes_stages seqs seq_lens st :
  forward seqs seq_lens None st = pipeline (self st) seqs seq_lens st.
Proof. apply forward_is_pipeline. Qed.

(** C2: with an incremental state bag the call raises at once, whatever the
    configuration: the state is returned untouched, so no kernel ran, the
    trace of sub-module calls did not grow, and nothing was returned. *)
Theorem forward_rejects_state_bag seqs seq_lens bag st :
  forward seqs seq_lens (Some bag) st
  = (st, Raise (ValueError incremental_msg)).
Proof. reflexivity. Qed.

(** C9: a forward call leaves every field of the front-end as it was, whether
    it returns or raises, and so does a second call made after it. *)
Theorem forward_leaves_configuration seqs seq_lens bag st :
  self (fst (forward seqs seq_lens bag st)) = self st
  /\ forall seqs' seq_lens' bag',
       self (fst (forward seqs' seq_lens' bag'
                    (fst (forward seqs seq_lens bag st)))) = self st.
Proof.
  split.
  - apply forward_keeps_self.
  - intros. rewrite forward_keeps_self. apply forward_keeps_self.
Qed.


(** C10: the mask a forward call returns is the one derived right after
    extraction, and every position-encoder call the forward call made was
    handed that same mask: the later stages only replace the sequences. *)
Theorem returned_mask_is_derived_mask seqs seq_lens st st' out mask :
  forward seqs seq_lens None st = (st', Return (out, mask)) ->
  exists st1 seqs1 lens1,
    extraction (self st) seqs seq_lens st = (st1, Return (seqs1, lens1))
    /\ mask = to_padding_mask seqs1 lens1
    /\ exists calls,
         trace st' = trace st ++ calls /\ Forall (handed_mask mask) calls.
Proof.
  intros H. apply forward_returns in H.
  destruct H as (st1 & seqs1 & lens1 & E & Hmask & Hrest).
  exists st1, seqs1, lens1. split; [exact E |]. split; [exact Hmask |].
  destruct (extraction_hands_mask (self st) mask seqs seq_lens st)
    as [c1 [T1 F1]].
  destruct (stages_hand_mask (self st) mask seqs1 st1) as [c2 [T2 F2]].
  rewrite E in T1. rewrite Hrest in T2. simpl in T1, T2.
  exists (c1 ++ c2). split.
  - rewrite T2, T1, app_assoc. reflexivity.
  - apply Forall_app. auto.
Qed.

End ForwardFacts.

(** ** Construction *)

Section InitFacts.
Context {torch : Torch}.



Lemma check_pos_encoder_returns model_dim pe pe' :
  check_pos_encoder model_dim pe = Return pe' ->
  pe' = pe /\ forall enc, pe = Some enc -> dim enc = model_dim.
Proof.
  unfold check_pos_encoder. destruct pe as [enc |].
  - destruct (Z.eqb_spec (dim enc) model_dim) as [E | N]; simpl.
    + intros H. injection H as <-. split; [reflexivity |].
      intros enc' H. injection H as <-. exact E.
    + discriminate.
  - intros H. injection H as <-. split; [reflexivity | discriminate].
Qed.

(** What a successful construction returns, field by field. *)
Lemma init_returns model_dim fe pe p_extract ln p_final norm_eps device dtype fr :
  __init__ model_dim fe pe p_extract ln p_final norm_eps device dtype
  = Return fr ->
  fr = mkFrontend model_dim fe
         (mkLayerNorm (feature_dim model_dim fe) norm_eps device dtype)
         (if negb (feature_dim model_dim fe =? model_dim)%Z
          then Some (mkLinear (feature_dim model_dim fe) model_dim true
                       device dtype)
          else None)
         (if (0 <? p_extract)%float then Some (mkDropout p_extract) else None)
         pe
         (if ln then Some (mkLayerNorm model_dim norm_eps device dtype)
          else None)
         (if (0 <? p_final)%float then Some (mkDropout p_final) else None).
Proof.
  unfold __init__.
  destruct (check_pos_encoder model_dim pe) as [e | pe'] eqn:E;
    [discriminate |].
  apply check_pos_encoder_returns in E. destruct E as [-> _].
  intros H. injection H as <-. reflexivity.
Qed.


(** C5: after construction the post-extraction normaliser is over
    [feature_dim], which is the extractor's [out_dim] when an extractor is
    given and [model_dim] otherwise; a projection exists exactly when
    [feature_dim] differs from [model_dim], and it then is the linear map
    from [feature_dim] to [model_dim] with bias; without an extractor there
    is no projection. *)
Theorem init_feature_dim_and_projection
    model_dim fe pe p_extract ln p_final norm_eps device dtype fr :
  __init__ model_dim fe pe p_extract ln p_final norm_eps device dtype
  = Return fr ->
  (forall ext, fe = Some ext -> feature_dim model_dim fe = out_dim ext)
  /\ (fe = None -> feature_dim model_dim fe = model_dim)
  /\ normalized_shape (post_extract_layer_norm fr) = feature_dim model_dim fe
  /\ ((exists proj, post_extract_proj fr = Some proj)
      <-> feature_dim model_dim fe <> model_dim)
  /\ (forall proj, post_extract_proj fr = Some proj ->
        proj = mkLinear (feature_dim model_dim fe) model_dim true device dtype)
  /\ (fe = None -> post_extract_proj fr = None).
Proof.
  intros H. apply init_returns in H. subst fr. simpl.
  split; [intros ext ->; reflexivity |].
  split; [intros ->; reflexivity |].
  split; [reflexivity |].
  destruct (Z.eqb_spec (feature_dim model_dim fe) model_dim) as [E | N]; simpl.
  - split; [| split].
    + split; [intros [proj H]; discriminate H | intros N; destruct (N E)].
    + discriminate.
    + reflexivity.
  - split; [| split].
    + split; [intros _; exact N | eauto].
    + intros proj H. injection H as <-. reflexivity.
    + intros ->. destruct N. reflexivity.
Qed.

(** C6: after construction the post-extraction dropout exists exactly when
    [post_extract_dropout_p > 0] and carries that probability, the final
    normaliser exists exactly when the [layer_norm] flag is set and is over
    [model_dim], and the final dropout exists exactly when [dropout_p > 0]
    and carries that probability. *)
Theorem init_optional_stages
    model_dim fe pe p_extract ln p_final norm_eps device dtype fr :
  __init__ model_dim fe pe p_extract ln p_final norm_eps device dtype
  = Return fr ->
  ((exists d, post_extract_dropout fr = Some d)
   <-> (0 <? p_extract)%float = true)
  /\ (forall d, post_extract_dropout fr = Some d -> d = mkDropout p_extract)
  /\ ((exists n, layer_norm fr = Some n) <-> ln = true)
  /\ (forall n, layer_norm fr = Some n ->
        n = mkLayerNorm model_dim norm_eps device dtype)
  /\ ((exists d, dropout fr = Some d) <-> (0 <? p_final)%float = true)
  /\ (forall d, dropout fr = Some d -> d = mkDropout p_final).
Proof.
  intros H. apply init_returns in H. subst fr. simpl.
  destruct (0 <? p_extract)%float, ln, (0 <? p_final)%float;
    repeat split;
    try solve [ intros [x H]; discriminate H
              | intros x H; injection H as <-; reflexivity
              | discriminate
              | eauto ].
Qed.

(** C8, as amended: the placement hints reach the constructor of every layer
    norm and of the projection the front-end builds; a dropout module is
    built from its probability alone and receives no hint. *)
Theorem init_passes_hints_to_norms_and_projection
    model_dim fe pe p_extract ln p_final norm_eps device dtype fr :
  __init__ model_dim fe pe p_extract ln p_final norm_eps device dtype
  = Return fr ->
  forall m, In m (instantiated fr) ->
    placement m = match m with
                  | sub_dropout _ => None
                  | _ => Some (device, dtype)
                  end.
Proof.
  intros H. apply init_returns in H. subst fr.
  unfold instantiated. simpl.
  intros m Hm.
  destruct (negb (feature_dim model_dim fe =? model_dim)%Z),
    (0 <? p_extract)%float, ln, (0 <? p_final)%float;
    simpl in Hm;
    repeat (destruct Hm as [<- | Hm]; [reflexivity |]);
    destruct Hm.
Qed.

End InitFacts.

(** ** The front-end with every optional stage switched off *)

Section BareFrontend.
Context {torch : Torch} {kernels : Kernels}.


End BareFrontend.

(** ** The definitions at work *)

Module Runs.
Import Fixture.

Example init_scenario :
  __init__ 256 None None 0%float false 0%float default_norm_eps None None
  = Return bare.
Proof. reflexivity. Qed.

Example init_with_defaults_builds_dropout :
  match __init__ 256 None None default_post_extract_dropout_p
          default_layer_norm default_dropout_p default_norm_eps None None with
  | Return fr => dropout fr = Some (mkDropout default_dropout_p)
  | Raise _ => False
  end.
Proof. reflexivity. Qed.

Example init_dim_mismatch :
  __init__ 3 (Some (strided 2)) (Some (indexed 4)) 0.5%float true
    default_dropout_p default_norm_eps cuda float16
  = Raise (ValueError
      "`dim` of `pos_encoder` and `model_dim` must be equal, but are 4 and 3 instead.").
Proof. reflexivity. Qed.

Example forward_full_trace :
  trace (fst (forward batch (Some [4; 2]%Z) None (start full)))
  = [ call_feature_extractor; call_post_extract_layer_norm;
      call_post_extract_proj; call_post_extract_dropout;
      call_pos_encoder (Some [[false; false]; [false; true]]);
      call_layer_norm; call_dropout ].
Proof. reflexivity. Qed.

Example forward_broken_extractor :
  let fr := mkFrontend 3 (Some (broken 2))
              (mkLayerNorm 2 default_norm_eps None None)
              None None None None None in
  forward batch None None (start fr)
  = (mkEnv fr O [call_feature_extractor],
     Raise (PyErr "RuntimeError" "shape mismatch")).
Proof. reflexivity. Qed.


(** Witness of C10, with every stage present. *)
Lemma returned_mask_is_derived_mask_witness :
  let mask := Some [[false; false]; [false; true]] in
  let st' := fst (forward batch (Some [4; 2]%Z) None (start full)) in
  let out := [[[0; 0; 0]; [0; 0; 0]]; [[0; 0; 0]; [0; 0; 0]]]%Z in
  forward batch (Some [4; 2]%Z) None (start full) = (st', Return (out, mask))
  /\ exists st1 seqs1 lens1,
       extraction full batch (Some [4; 2]%Z) (start full)
       = (st1, Return (seqs1, lens1))
       /\ mask = to_padding_mask seqs1 lens1
       /\ exists calls,
            trace st' = trace (start full) ++ calls
            /\ Forall (handed_mask mask) calls.
Proof.
  intros mask st' out.
  assert (H : forward batch (Some [4; 2]%Z) None (start full)
              = (st', Return (out, mask))) by reflexivity.
  split; [exact H |].
  exact (returned_mask_is_derived_mask _ _ _ H).
Defined.

(** Witness of C5: an extractor with [out_dim] 80 under [model_dim] 256. *)
Lemma init_feature_dim_and_projection_witness :
  exists fr,
    __init__ 256 (Some (strided 80)) None 0%float false 0%float
      default_norm_eps None None = Return fr
    /\ normalized_shape (post_extract_layer_norm fr) = 80%Z
    /\ forall proj, post_extract_proj fr = Some proj ->
         proj = mkLinear 80 256 true None None.
Proof.
  eexists. split; [reflexivity |].
  pose proof (init_feature_dim_and_projection 256 (Some (strided 80)) None
                0%float false 0%float default_norm_eps None None
                eq_refl) as H.
  split; [apply H | apply H].
Defined.

(** Witness of C6: both dropouts and the final normaliser requested. *)
Lemma init_optional_stages_witness :
  __init__ 3 (Some (strided 2)) (Some (indexed 3)) 0.5%float true
    default_dropout_p default_norm_eps cuda float16 = Return full
  /\ ((exists d, post_extract_dropout full = Some d)
      <-> (0 <? 0.5)%float = true)
  /\ ((exists n, layer_norm full = Some n) <-> true = true)
  /\ ((exists d, dropout full = Some d)
      <-> (0 <? default_dropout_p)%float = true).
Proof.
  pose proof (init_optional_stages 3 (Some (strided 2)) (Some (indexed 3))
                0.5%float true default_dropout_p default_norm_eps
                cuda float16 eq_refl) as H.
  split; [reflexivity |].
  split; [apply H |]. split; apply H.
Defined.

(** Witness of C8 as amended. *)
Lemma init_passes_hints_witness :
  __init__ 3 (Some (strided 2)) (Some (indexed 3)) 0.5%float true
    default_dropout_p default_norm_eps cuda float16 = Return full
  /\ placement (sub_linear (mkLinear 2 3 true cuda float16))
     = Some (cuda, float16)
  /\ placement (sub_dropout (mkDropout 0.5%float)) = None.
Proof.
  pose proof (init_passes_hints_to_norms_and_projection
                3 (Some (strided 2)) (Some (indexed 3))
                0.5%float true default_dropout_p default_norm_eps
                cuda float16 eq_refl) as H.
  split; [reflexivity |]. split.
  - apply (H (sub_linear (mkLinear 2 3 true cuda float16))).
    simpl. auto.
  - apply (H (sub_dropout (mkDropout 0.5%float))).
    simpl. auto.
Defined.

(** Counterexample to C8 as stated: built with the default dropout
    probability on a named device, the front-end holds a dropout module whose
    constructor was given no placement hint. *)
Lemma dropout_receives_no_hints :
  exists fr,
    __init__ 256 None None default_post_extract_dropout_p default_layer_norm
      default_dropout_p default_norm_eps cuda float16 = Return fr
    /\ ~ hints_reach_all cuda float16 fr.
Proof.
  eexists. split; [reflexivity |].
  intros H.
  specialize (H (sub_dropout (mkDropout default_dropout_p))).
  simpl in H.
  assert (E : @None (option Device * option DType) = Some (cuda, float16))
    by (apply H; auto).
  discriminate E.
Defined.

End Runs.

(** ** The calls of a forward pass *)

Section StageFacts.
Context {torch : Torch} {kernels : Kernels}.

Lemma mirrors_optional {S : Type} (o : option S)
    (run : S -> Tensor -> M Tensor) c (k : S -> Tensor -> K Tensor) fs ts :
  (forall m x st, run m x st = invoke c (k m x) st) ->
  mirrors fs ts ->
  mirrors (optional_stage o run :: fs)
          (match o with Some m => [(c, k m)] | None => [] end ++ ts).
Proof.
  intros Hrun Hrest. destruct o as [m |]; simpl.
  - apply mirrors_call; [apply Hrun | exact Hrest].
  - apply mirrors_skip; [reflexivity | exact Hrest].
Qed.

Lemma stages_mirror fr mask :
  mirrors (stages_after_mask fr mask) (present_stages fr mask).
Proof.
  unfold stages_after_mask, present_stages.
  apply mirrors_call; [reflexivity |].
  apply (mirrors_optional (post_extract_proj fr) _
           call_post_extract_proj Linear_forward); [reflexivity |].
  apply (mirrors_optional (post_extract_dropout fr) _
           call_post_extract_dropout Dropout_forward); [reflexivity |].
  apply (mirrors_optional (pos_encoder fr) _
           (call_pos_encoder mask) (fun m x => pe_forward m x mask));
    [reflexivity |].
  apply (mirrors_optional (layer_norm fr) _
           call_layer_norm LayerNorm_forward); [reflexivity |].
  rewrite <- (app_nil_r (match dropout fr with
                         | Some m => [(call_dropout, Dropout_forward m)]
                         | None => []
                         end)).
  apply (mirrors_optional (dropout fr) _
           call_dropout Dropout_forward); [reflexivity |].
  apply mirrors_nil.
Qed.

Lemma compose_as_kernels fs ts :
  mirrors fs ts ->
  forall x st, compose fs x st = finish st (run_kernels ts x (world st)).
Proof.
  induction 1 as [| f fs c k ts Hf _ IH | f fs ts Hf _ IH]; intros x st.
  - destruct st as [fr w tr]. unfold finish. simpl.
    rewrite app_nil_r. reflexivity.
  - change (compose (f :: fs) x st) with (bind (f x) (compose fs) st).
    unfold bind. rewrite Hf. unfold invoke. simpl run_kernels.
    destruct (k x (world st)) as [w1 [e | y]]; [reflexivity |].
    rewrite IH. simpl world.
    destruct (run_kernels ts y w1) as [[w2 calls] r].
    unfold finish. simpl. rewrite <- app_assoc. reflexivity.
  - change (compose (f :: fs) x st) with (bind (f x) (compose fs) st).
    unfold bind. rewrite Hf. simpl. apply IH.
Qed.

(** The forward pass as a run on the world. *)
Lemma forward_runs seqs seq_lens st :
  forward seqs seq_lens None st
  = finish st (run_frontend (self st) seqs seq_lens (world st)).
Proof.
  rewrite forward_is_pipeline.
  unfold pipeline, extraction, run_frontend, bind.
  destruct (feature_extractor (self st)) as [fe |].
  - unfold invoke.
    destruct (fe_forward fe seqs seq_lens (world st))
      as [w1 [e | [seqs1 lens1]]]; [reflexivity |].
    rewrite (compose_as_kernels (stages_mirror _ _)). simpl world.
    destruct (run_kernels _ seqs1 w1) as [[w2 calls] [e | out]];
      unfold finish, ret; simpl; rewrite <- app_assoc; reflexivity.
  - unfold ret at 1.
    rewrite (compose_as_kernels (stages_mirror _ _)).
    destruct (run_kernels _ seqs (world st)) as [[w2 calls] [e | out]];
      reflexivity.
Qed.

(** The calls of a run are the first stages of the list, as far as the run
    got: all of them if it returned, at least one if it raised. *)
Lemma run_kernels_calls stages x w :
  exists rest,
    map fst stages = snd (fst (run_kernels stages x w)) ++ rest
    /\ match snd (run_kernels stages x w) with
       | Return _ => rest = []
       | Raise _ => snd (fst (run_kernels stages x w)) <> []
       end.
Proof.
  revert x w. induction stages as [| [c k] stages IH]; intros x w.
  - exists []. split; reflexivity.
  - simpl. destruct (k x w) as [w1 [e | y]].
    + exists (map fst stages). split; [reflexivity | discriminate].
    + destruct (IH y w1) as [rest [E H]].
      destruct (run_kernels stages y w1) as [[w2 calls] r]. simpl in *.
      exists rest. split; [rewrite E; reflexivity |].
      destruct r; [discriminate | exact H].
Qed.

Lemma expected_calls_NoDup fr mask : NoDup (expected_calls fr mask).
Proof.
  unfold expected_calls, present_stages.
  destruct (feature_extractor fr), (post_extract_proj fr),
    (post_extract_dropout fr), (pos_encoder fr), (layer_norm fr),
    (dropout fr); simpl;
    repeat (constructor; [simpl; intuition discriminate |]);
    constructor.
Qed.

Lemma NoDup_prefix {A : Type} (l1 l2 : list A) :
  NoDup (l1 ++ l2) -> NoDup l1.
Proof. intros H. apply NoDup_app_remove_r in H. exact H. Qed.

End StageFacts.

Section CallFacts.
Context {torch : Torch} {kernels : Kernels}.

Lemma run_frontend_calls fr seqs seq_lens w :
  exists mask rest,
    expected_calls fr mask
    = snd (fst (run_frontend fr seqs seq_lens w)) ++ rest
    /\ match snd (run_frontend fr seqs seq_lens w) with
       | Return (_, m) => m = mask /\ rest = []
       | Raise _ => True
       end.
Proof.
  unfold run_frontend, expected_calls.
  destruct (feature_extractor fr) as [fe |].
  - destruct (fe_forward fe seqs seq_lens w) as [w1 [e | [seqs1 lens1]]].
    + exists None. eexists. simpl. split; [reflexivity | exact I].
    + exists (to_padding_mask seqs1 lens1).
      destruct (run_kernels_calls
                  (present_stages fr (to_padding_mask seqs1 lens1)) seqs1 w1)
        as [rest [E H]].
      destruct (run_kernels _ seqs1 w1) as [[w2 calls] r]. simpl in *.
      exists rest. split; [rewrite E; reflexivity |].
      destruct r as [e | out]; simpl; auto.
  - exists (to_padding_mask seqs seq_lens).
    destruct (run_kernels_calls
                (present_stages fr (to_padding_mask seqs seq_lens)) seqs w)
      as [rest [E H]].
    destruct (run_kernels _ seqs w) as [[w2 calls] r]. simpl in *.
    exists rest. split; [exact E |].
    destruct r as [e | out]; simpl; auto.
Qed.

Lemma forward_return_trace seqs seq_lens st st' out mask :
  forward seqs seq_lens None st = (st', Return (out, mask)) ->
  trace st' = trace st ++ expected_calls (self st) mask.
Proof.
  rewrite forward_runs.
  destruct (run_frontend_calls (self st) seqs seq_lens (world st))
    as (mask0 & rest & E & H).
  destruct (run_frontend _ seqs seq_lens (world st)) as [[w calls] r].
  unfold finish. simpl in *. intros Hrun.
  injection Hrun as <- ->. destruct H as [<- ->].
  rewrite app_nil_r in E. rewrite E. reflexivity.
Qed.

(** X1: a forward call that returns has called, once each and in this
    order, the feature extractor if there is one, the post-extraction layer
    norm, and every optional sub-module that is configured; a sub-module
    that is [None] is never called. *)
Theorem forward_calls_on_return seqs seq_lens st st' out mask :
  forward seqs seq_lens None st = (st', Return (out, mask)) ->
  trace st' = trace st ++ expected_calls (self st) mask.
Proof. apply forward_return_trace. Qed.

(** X2: whatever its outcome, the sub-module calls of a forward call
    without state bag are an initial part of the fixed order of the
    configured sub-modules, none made twice: no sub-module is called out of
    turn, and none is called again after a later one. *)
Theorem forward_calls_in_order seqs seq_lens st :
  exists mask calls rest,
    trace (fst (forward seqs seq_lens None st)) = trace st ++ calls
    /\ expected_calls (self st) mask = calls ++ rest
    /\ NoDup calls.
Proof.
  rewrite forward_runs.
  destruct (run_frontend_calls (self st) seqs seq_lens (world st))
    as (mask & rest & E & _).
  destruct (run_frontend _ seqs seq_lens (world st)) as [[w calls] r].
  simpl in *. exists mask, calls, rest.
  split; [reflexivity |]. split; [exact E |].
  apply NoDup_prefix with (l2 := rest). rewrite <- E.
  apply expected_calls_NoDup.
Qed.

End CallFacts.

(** ** Features extracted beforehand *)

Section ExternalExtraction.
Context {torch : Torch} {kernels : Kernels}.

Lemma forward_after_extraction fr fr0 fe seqs seq_lens w tr w1 seqs1 lens1 :
  feature_extractor fr = Some fe ->
  feature_extractor fr0 = None ->
  (forall mask, present_stages fr mask = present_stages fr0 mask) ->
  fe_forward fe seqs seq_lens w = (w1, Return (seqs1, lens1)) ->
  exists w' tr' r,
    forward seqs seq_lens None (mkEnv fr w tr) = (mkEnv fr w' tr', r)
    /\ forward seqs1 lens1 None
         (mkEnv fr0 w1 (tr ++ [call_feature_extractor]))
       = (mkEnv fr0 w' tr', r).
Proof.
  intros Hfe Hnone Hsame Efe.
  rewrite !forward_runs. unfold run_frontend.
  cbn [self world trace]. rewrite Hfe, Hnone, Efe, Hsame.
  destruct (run_kernels _ seqs1 w1) as [[w2 calls] r].
  unfold finish. cbn [self world trace].
  eexists _, _, _. split; [reflexivity |].
  rewrite <- app_assoc. reflexivity.
Qed.

(** X5: features may be extracted beforehand (docstring, lines 50-52).
    When the extractor already puts out [model_dim] features,
    the front-end built without it, under otherwise the same arguments,
    exists as well, and a forward call of the front-end with the extractor
    ends as the extractor run first and the other front-end run on what it
    returned: the same result or exception, the same world, the same calls. *)
Theorem extraction_can_be_done_beforehand
    model_dim fe pe p_extract ln p_final norm_eps device dtype fr :
  __init__ model_dim (Some fe) pe p_extract ln p_final norm_eps device dtype
  = Return fr ->
  out_dim fe = model_dim ->
  exists fr0,
    __init__ model_dim None pe p_extract ln p_final norm_eps device dtype
    = Return fr0
    /\ forall seqs seq_lens w tr w1 seqs1 lens1,
         fe_forward fe seqs seq_lens w = (w1, Return (seqs1, lens1)) ->
         exists w' tr' r,
           forward seqs seq_lens None (mkEnv fr w tr) = (mkEnv fr w' tr', r)
           /\ forward seqs1 lens1 None
                (mkEnv fr0 w1 (tr ++ [call_feature_extractor]))
              = (mkEnv fr0 w' tr', r).
Proof.
  intros Hfr Hdim.
  destruct (check_pos_encoder model_dim pe) as [e | pe'] eqn:Epe.
  { unfold __init__ in Hfr. rewrite Epe in Hfr. discriminate Hfr. }
  eexists. split.
  { unfold __init__. rewrite Epe. reflexivity. }
  apply init_returns in Hfr. subst fr.
  apply check_pos_encoder_returns in Epe. destruct Epe as [-> _].
  unfold feature_dim. rewrite Hdim.
  intros seqs seq_lens w tr w1 seqs1 lens1 Efe.
  apply forward_after_extraction with (fe := fe) (seq_lens := seq_lens)
    (seqs := seqs) (w := w); auto.
Qed.

(** X8: construction and forward pass together.  On a front-end that
    [__init__] returned, a forward call that returns has made exactly the
    calls its constructor arguments determine: the extractor if one was
    given, the post-extraction layer norm, the projection if the
    extractor's [out_dim] differs from [model_dim], the post-extraction
    dropout if its probability is above zero, the position encoder if one
    was given, the final layer norm if the flag was set, and the final
    dropout if its probability is above zero. *)
Theorem constructed_frontend_calls
    model_dim fe pe p_extract ln p_final norm_eps device dtype fr
    seqs seq_lens w tr st' out mask :
  __init__ model_dim fe pe p_extract ln p_final norm_eps device dtype
  = Return fr ->
  forward seqs seq_lens None (mkEnv fr w tr) = (st', Return (out, mask)) ->
  trace st'
  = tr ++ calls_for_arguments model_dim fe pe p_extract ln p_final mask.
Proof.
  intros Hfr Hrun. apply forward_return_trace in Hrun.
  rewrite Hrun. cbn [self trace]. f_equal.
  apply init_returns in Hfr. subst fr.
  unfold expected_calls, present_stages, calls_for_arguments.
  cbn [feature_extractor post_extract_layer_norm post_extract_proj
       post_extract_dropout pos_encoder layer_norm dropout].
  destruct fe, (feature_dim model_dim _ =? model_dim)%Z,
    (0 <? p_extract)%float, pe, ln, (0 <? p_final)%float; reflexivity.
Qed.

End ExternalExtraction.

(** ** More on construction *)

Section InitInvariants.
Context {torch : Torch}.

(** X6: a front-end that [__init__] returns keeps [model_dim], the feature
    extractor and the position encoder as they were passed, and its stages
    fit together: the post-extraction norm is over the extractor's output,
    the projection (if any) leads from there to [model_dim], and everything
    after it is over [model_dim]. *)
Theorem init_is_well_dimensioned
    md fe pe p_extract ln p_final norm_eps device dtype fr :
  __init__ md fe pe p_extract ln p_final norm_eps device dtype = Return fr ->
  model_dim fr = md
  /\ feature_extractor fr = fe
  /\ pos_encoder fr = pe
  /\ well_dimensioned fr.
Proof.
  intros H.
  assert (Hpe : forall enc, pe = Some enc -> dim enc = md).
  { unfold __init__ in H.
    destruct (check_pos_encoder md pe) as [e | pe'] eqn:E;
      [discriminate |].
    apply check_pos_encoder_returns in E. apply E. }
  apply init_returns in H. subst fr. unfold well_dimensioned. simpl.
  assert (Hln : forall m,
             (if ln then Some (mkLayerNorm md norm_eps device dtype)
              else None) = Some m -> normalized_shape m = md).
  { destruct ln; [| discriminate].
    intros m H. injection H as <-. reflexivity. }
  do 3 (split; [reflexivity |]).
  split; [destruct fe; reflexivity |].
  destruct (Z.eqb_spec (feature_dim md fe) md) as [E | N]; simpl.
  - split; [discriminate |]. split; [intros _; exact E |]. auto.
  - split; [intros m H; injection H as <-; simpl; auto |].
    split; [discriminate |]. auto.
Qed.

Lemma SFcompare_refl (f : SpecFloat.spec_float) :
  f <> SpecFloat.S754_nan -> SpecFloat.SFcompare f f = Some Eq.
Proof.
  destruct f as [s | s | | s m e]; simpl; intros N.
  - reflexivity.
  - destruct s; reflexivity.
  - destruct N. reflexivity.
  - rewrite Z.compare_refl.
    change (Pos.compare_cont Eq m m) with (Pos.compare m m).
    rewrite Pos.compare_refl. destruct s; reflexivity.
Qed.

(** Python's [p > 0.0] fails for a NaN and for every [p <= 0.0]. *)
Lemma not_above_zero (q : float) :
  is_nan q = true \/ (q <=? 0)%float = true -> (0 <? q)%float = false.
Proof.
  unfold is_nan.
  rewrite FloatAxioms.ltb_spec, FloatAxioms.leb_spec, FloatAxioms.eqb_spec.
  change (Prim2SF 0) with (SpecFloat.S754_zero false).
  unfold SpecFloat.SFltb, SpecFloat.SFleb, SpecFloat.SFeqb.
  intros [H | H].
  - destruct (Prim2SF q) as [s | s | | s m e] eqn:E; try reflexivity.
    + destruct s; [reflexivity | discriminate H].
    + rewrite SFcompare_refl in H by discriminate. discriminate H.
  - destruct (Prim2SF q) as [s | s | | s m e]; try reflexivity;
      destruct s; simpl in *; first [reflexivity | discriminate H].
Qed.

End InitInvariants.

(** ** Construction with the constructors' own errors *)

Section CheckedFacts.
Context {torch : Torch} {constructors : Constructors}.


(** A front-end the constructor returns is the one [__init__] as modelled
    first returns. *)
Lemma checked_init_returns
    md fe pe p_extract ln p_final norm_eps device dtype fr :
  Checked.__init__ md fe pe p_extract ln p_final norm_eps device dtype
  = Return fr ->
  __init__ md fe pe p_extract ln p_final norm_eps device dtype = Return fr.
Proof.
  unfold Checked.__init__, __init__, Checked.new_LayerNorm,
    Checked.new_Linear, Checked.new_Dropout, Checked.when,
    Checked.construct.
  destruct (LayerNorm_rejects (feature_dim md fe) norm_eps device dtype);
    cbn [Checked.and_then]; [discriminate |].
  destruct (negb (feature_dim md fe =? md)%Z).
  1: destruct (Linear_rejects _ _ _ _ _); [discriminate |].
  all: cbn [Checked.and_then].
  all: destruct (0 <? p_extract)%float.
  all: try (destruct (Dropout_rejects p_extract); [discriminate |]).
  all: cbn [Checked.and_then].
  all: destruct (check_pos_encoder md pe) as [e | pe'];
    cbn [Checked.and_then]; [discriminate |].
  all: destruct ln.
  all: try (destruct (LayerNorm_rejects md _ _ _); [discriminate |]).
  all: cbn [Checked.and_then].
  all: destruct (0 <? p_final)%float.
  all: try (destruct (Dropout_rejects p_final); [discriminate |]).
  all: cbn [Checked.and_then].
  all: intros H; exact H.
Qed.



(** X7: a dropout probability that is a NaN, or that is zero or negative
    (minus zero and minus infinity included), never reaches the [Dropout]
    constructor: whatever the constructors accept or refuse, construction
    ends as it does with that probability set to 0.0, with the same
    exception or with the same front-end, which has no such dropout.  This
    holds for each of the two probabilities. *)
Theorem init_takes_nonpositive_probability_as_zero
    md fe pe p_extract ln p_final norm_eps device dtype :
  (is_nan p_extract = true \/ (p_extract <=? 0)%float = true ->
   Checked.__init__ md fe pe p_extract ln p_final norm_eps device dtype
   = Checked.__init__ md fe pe 0%float ln p_final norm_eps device dtype)
  /\ (is_nan p_final = true \/ (p_final <=? 0)%float = true ->
      Checked.__init__ md fe pe p_extract ln p_final norm_eps device dtype
      = Checked.__init__ md fe pe p_extract ln 0%float norm_eps device dtype).
Proof.
  assert (Z0 : (0 <? 0)%float = false) by reflexivity.
  split; intros Hp; unfold Checked.__init__;
    rewrite (not_above_zero Hp), Z0; reflexivity.
Qed.

End CheckedFacts.

(** ** Further runs *)

Module MoreRuns.
Import Fixture Cases.

Example init_with_extractor :
  __init__ 2 (Some (strided 2)) (Some (indexed 2)) 0%float false
    default_dropout_p default_norm_eps None None
  = Return with_extractor.
Proof. reflexivity. Qed.

Example forward_calls_stop_at_failure :
  trace (fst (forward batch None None (start faulty)))
  = [call_feature_extractor].
Proof. reflexivity. Qed.

(** Witness of X1, with every stage present. *)
Lemma forward_calls_on_return_witness :
  let mask := Some [[false; false]; [false; true]] in
  let st' := fst (forward batch (Some [4; 2]%Z) None (start full)) in
  let out := [[[0; 0; 0]; [0; 0; 0]]; [[0; 0; 0]; [0; 0; 0]]]%Z in
  forward batch (Some [4; 2]%Z) None (start full) = (st', Return (out, mask))
  /\ trace st' = trace (start full) ++ expected_calls full mask.
Proof.
  intros mask st' out.
  assert (H : forward batch (Some [4; 2]%Z) None (start full)
              = (st', Return (out, mask))) by reflexivity.
  split; [exact H |].
  exact (forward_calls_on_return _ _ _ H).
Defined.

(** Witness of X5: a stride-two extractor that puts out [model_dim]
    features. *)
Lemma extraction_can_be_done_beforehand_witness :
  __init__ 2 (Some (strided 2)) (Some (indexed 2)) 0%float false
    default_dropout_p default_norm_eps None None
  = Return with_extractor
  /\ out_dim (strided 2) = 2%Z
  /\ exists fr0,
       __init__ 2 None (Some (indexed 2)) 0%float false
         default_dropout_p default_norm_eps None None
       = Return fr0
       /\ forall seqs seq_lens w tr w1 seqs1 lens1,
            fe_forward (strided 2) seqs seq_lens w
            = (w1, Return (seqs1, lens1)) ->
            exists w' tr' r,
              forward seqs seq_lens None (mkEnv with_extractor w tr)
              = (mkEnv with_extractor w' tr', r)
              /\ forward seqs1 lens1 None
                   (mkEnv fr0 w1 (tr ++ [call_feature_extractor]))
                 = (mkEnv fr0 w' tr', r).
Proof.
  split; [reflexivity |]. split; [reflexivity |].
  exact (@extraction_can_be_done_beforehand _ _ 2 (strided 2)
           (Some (indexed 2)) 0%float false default_dropout_p
           default_norm_eps None None _ eq_refl eq_refl).
Defined.

(** Witness of X6. *)
Lemma init_is_well_dimensioned_witness :
  __init__ 3 (Some (strided 2)) (Some (indexed 3)) 0.5%float true
    default_dropout_p default_norm_eps cuda float16 = Return full
  /\ model_dim full = 3%Z
  /\ feature_extractor full = Some (strided 2)
  /\ pos_encoder full = Some (indexed 3)
  /\ well_dimensioned full.
Proof.
  split; [reflexivity |].
  exact (@init_is_well_dimensioned _ 3 (Some (strided 2))
           (Some (indexed 3)) 0.5%float true default_dropout_p
           default_norm_eps cuda float16 _ eq_refl).
Defined.

(** Witness of X8: an extractor with [out_dim] 2 under [model_dim] 3, so
    that the projection is built and called. *)
Lemma constructed_frontend_calls_witness :
  let mask := Some [[false; false]; [false; true]] in
  let st' := fst (forward batch (Some [4; 2]%Z) None (start full)) in
  let out := [[[0; 0; 0]; [0; 0; 0]]; [[0; 0; 0]; [0; 0; 0]]]%Z in
  __init__ 3 (Some (strided 2)) (Some (indexed 3)) 0.5%float true
    default_dropout_p default_norm_eps cuda float16 = Return full
  /\ forward batch (Some [4; 2]%Z) None (mkEnv full O [])
     = (st', Return (out, mask))
  /\ trace st'
     = [] ++ calls_for_arguments 3 (Some (strided 2)) (Some (indexed 3))
               0.5%float true default_dropout_p mask.
Proof.
  intros mask st' out.
  assert (H : forward batch (Some [4; 2]%Z) None (mkEnv full O [])
              = (st', Return (out, mask))) by reflexivity.
  split; [reflexivity |]. split; [exact H |].
  exact (@constructed_frontend_calls _ _ 3 (Some (strided 2))
           (Some (indexed 3)) 0.5%float true default_dropout_p
           default_norm_eps cuda float16 full batch (Some [4; 2]%Z)
           O [] st' out mask eq_refl H).
Defined.

Example checked_init_scenario :
  Checked.__init__ 256 None None 0%float false 0%float default_norm_eps
    None None
  = Return bare.
Proof. reflexivity. Qed.

Example negative_model_dim_fails_construction :
  Checked.__init__ (-1) None None 0%float false 0%float default_norm_eps
    None None
  = Raise (PyErr "RuntimeError"
             "Trying to create tensor with negative dimension").
Proof. reflexivity. Qed.

(** The dropout of line 90 is built, and refused, before the check of
    line 95 is reached. *)
Example dropout_is_refused_before_dim_check :
  Checked.__init__ 3 None (Some (indexed 4)) 2%float false 0%float
    default_norm_eps None None
  = Raise (ValueError "dropout probability has to be between 0 and 1").
Proof. reflexivity. Qed.



(** Witness of X7: the constructor [Dropout] would refuse -1, and is not
    asked. *)
Lemma init_takes_nonpositive_probability_as_zero_witness :
  Dropout_rejects (-1)%float <> None
  /\ is_nan nan = true
  /\ (-1 <=? 0)%float = true
  /\ Checked.__init__ 256 None None (-1)%float false nan default_norm_eps
       None None
     = Return bare.
Proof.
  split; [discriminate |]. split; [reflexivity |]. split; [reflexivity |].
  destruct (init_takes_nonpositive_probability_as_zero
              256 None None (-1)%float false nan default_norm_eps None None)
    as [H1 _].
  rewrite (H1 (or_intror eq_refl)).
  destruct (init_takes_nonpositive_probability_as_zero
              256 None None 0%float false nan default_norm_eps None None)
    as [_ H2].
  rewrite (H2 (or_introl eq_refl)).
  reflexivity.
Defined.

End MoreRuns.
